(** * Ductolator: the workbook inspector [excel/analyze_excel.py]

    The script loads one workbook through openpyxl, prints the name and the
    used range of its active sheet, and then prints one line for every
    populated cell of rows 1-40 and columns 1-15, tagging formulas.

    The development has three layers:
    - [Py]: the Python built-ins the script calls ([str], [startswith],
      [print] through the [Script] monad);
    - [Openpyxl]: the objects of the spreadsheet library the script reads
      (workbook, worksheet, cell, [iter_rows], [coordinate],
      [load_workbook]);
    - [Script]: the sixteen lines of the script, statement by statement, in a
      state-and-exception monad over the disk and the standard output. *)

From Stdlib Require Import ZArith Ascii DecimalString DecimalNat.
From stdpp Require Import base option list gmap strings sorting.

Local Open Scope nat_scope.

(** ** Python built-ins *)

Module Py.

(** The character [\n]. *)
Definition newline : string := String "010"%char EmptyString.

(** [s.startswith(prefix)]. *)
Definition startswith (s prefix : string) : bool := String.prefix prefix s.

(** [str(n)] for a non-negative [int]. *)
Definition str_nat (n : nat) : string :=
  NilEmpty.string_of_uint (Nat.to_uint n).

(** [str(n)] for an [int]. *)
Definition str_int (n : Z) : string :=
  NilEmpty.string_of_int (Z.to_int n).

(** [str(b)] for a [bool]. *)
Definition str_bool (b : bool) : string :=
  if b then "True" else "False".

(** [chr(n)]. *)
Definition chr (n : nat) : ascii := ascii_of_nat n.

End Py.

(** ** The spreadsheet library, as far as the script uses it *)

Module Openpyxl.

(** What [cell.value] can hold when it is not [None].  A float and a
    date or time are kept with the text Python's [str] gives for them,
    which is all the script observes of such a value. *)
Inductive cell_value : Type :=
| VStr (s : string)
| VInt (n : Z)
| VBool (b : bool)
| VFloat (repr : string)
| VDate (repr : string).

(** [str(cell.value)] *)
Definition str (v : cell_value) : string :=
  match v with
  | VStr s => s
  | VInt n => Py.str_int n
  | VBool b => Py.str_bool b
  | VFloat repr => repr
  | VDate repr => repr
  end.

(** The loop of [get_column_letter]: [divmod] by 26 with a borrow on an
    exact division, one letter appended per round.  The list is in the
    order of the appends (last letter of the column name first). *)
Fixpoint letters_loop (fuel col_idx : nat) : list ascii :=
  match fuel with
  | 0 => []
  | S fuel' =>
      if col_idx =? 0 then []
      else
        let q := col_idx / 26 in
        let remainder := col_idx mod 26 in
        if remainder =? 0
        then Py.chr (26 + 64) :: letters_loop fuel' (q - 1)
        else Py.chr (remainder + 64) :: letters_loop fuel' q
  end.

(** [get_column_letter(col_idx)]: [None] stands for the [ValueError]
    raised outside 1..18278. *)
Definition get_column_letter (col_idx : nat) : option string :=
  if (1 <=? col_idx) && (N.of_nat col_idx <=? 18278)%N
  then Some (String.string_of_list_ascii (rev (letters_loop col_idx col_idx)))
  else None.

Record Cell : Type := {
  row : nat;
  column : nat;
  value : option cell_value
}.

(** [cell.coordinate]: the column letters followed by the row number. *)
Definition coordinate (cell : Cell) : option string :=
  col ← get_column_letter (column cell);
  Some (col +:+ Py.str_nat (row cell)).

Record Worksheet : Type := {
  title : string;
  dimensions : string;
  cells : gmap (nat * nat) cell_value
}.

(** [ws.cell(row, column)]: a position without a stored value reads as a
    cell whose value is [None]. *)
Definition ws_cell (ws : Worksheet) (r c : nat) : Cell :=
  {| row := r; column := c; value := cells ws !! (r, c) |}.

(** [ws.iter_rows(min_row, max_row, min_col, max_col)]: one tuple of
    cells per row of [range(min_row, max_row + 1)], each over
    [range(min_col, max_col + 1)]. *)
Definition iter_rows (ws : Worksheet)
    (min_row max_row min_col max_col : nat) : list (list Cell) :=
  (λ r, ws_cell ws r <$> seq min_col (S max_col - min_col))
    <$> seq min_row (S max_row - min_row).

Record Workbook : Type := {
  active : Worksheet
}.

(** A cell as the file stores it: a literal, or a formula with the
    result cached by the application that saved the file. *)
Inductive stored_cell : Type :=
| Literal (v : cell_value)
| Formula (text : string) (cached : option cell_value).

Record stored_sheet : Type := {
  sheet_name : string;
  sheet_ref : string;
  sheet_data : gmap (nat * nat) stored_cell
}.

Record stored_workbook : Type := {
  active_sheet : stored_sheet;
  other_sheets : list stored_sheet
}.

(** What a path of the file system can hold. *)
Inductive file : Type :=
| Unreadable
| Garbage (raw : string)
| Xlsx (wb : stored_workbook).

Inductive load_error : Type :=
| FileNotFoundOrUnreadable
| MalformedWorkbook.

(** With [data_only=False] a formula cell reads as its formula text
    behind [=]; with [data_only=True] it reads as the cached result. *)
Definition read_cell (data_only : bool) (sc : stored_cell)
    : option cell_value :=
  match sc with
  | Literal v => Some v
  | Formula text cached =>
      if data_only then cached else Some (VStr ("=" +:+ text))
  end.

Definition read_sheet (data_only : bool) (s : stored_sheet) : Worksheet :=
  {| title := sheet_name s;
     dimensions := sheet_ref s;
     cells := omap (read_cell data_only) (sheet_data s) |}.

(** [openpyxl.load_workbook(path, data_only=...)] on a file system. *)
Definition load_workbook (fs : gmap string file) (path : string)
    (data_only : bool) : load_error + Workbook :=
  match fs !! path with
  | None | Some Unreadable => inl FileNotFoundOrUnreadable
  | Some (Garbage _) => inl MalformedWorkbook
  | Some (Xlsx wb) =>
      inr {| active := read_sheet data_only (active_sheet wb) |}
  end.

End Openpyxl.

(** ** The script *)

Module Script.
Import Openpyxl.

(** The part of the world the script touches: the file system it reads
    and the standard output, kept as the list of the strings handed to
    [print], oldest first. *)
Record World : Type := {
  disk : gmap string file;
  stdout : list string
}.

Inductive exn : Type :=
| LoadError (e : load_error)
| ValueError.

(** A statement: it may change the world and either raises or returns. *)
Definition M (A : Type) : Type := World → (exn + A) * World.

Definition ret {A} (a : A) : M A := λ w, (inr a, w).

Definition bind {A B} (m : M A) (k : A → M B) : M B :=
  λ w, match m w with
       | (inl e, w') => (inl e, w')
       | (inr a, w') => k a w'
       end.

Definition raise {A} (e : exn) : M A := λ w, (inl e, w).

#[global] Instance M_ret : MRet M := @ret.
#[global] Instance M_bind : MBind M := λ A B k m, bind m k.

(** [print(s)] *)
Definition print (s : string) : M unit :=
  λ w, (inr tt, {| disk := disk w; stdout := stdout w ++ [s] |}).

(** [openpyxl.load_workbook(path, data_only=...)] *)
Definition load (path : string) (data_only : bool) : M Workbook :=
  λ w, match load_workbook (disk w) path data_only with
       | inl e => (inl (LoadError e), w)
       | inr wb => (inr wb, w)
       end.

(** Reading the [coordinate] property, whose getter may raise. *)
Definition get_coordinate (cell : Cell) : M string :=
  match coordinate cell with
  | Some s => ret s
  | None => raise ValueError
  end.

(** [for x in xs: body] *)
Fixpoint for_ {A} (xs : list A) (body : A → M unit) : M unit :=
  match xs with
  | [] => ret tt
  | x :: xs' => bind (body x) (λ _, for_ xs' body)
  end.

Definition workbook_path : string :=
  "c:\Users\forst\repo\Ductolator\excel\Mixed Air Calculator 1.xlsx".

(** The body of the inner loop (lines 11-16). *)
Definition visit (cell : Cell) : M unit :=
  match value cell with
  | Some v =>
      let val := str v in
      if Py.startswith val "="
      then coord ← get_coordinate cell;
           print (coord +:+ ": FORMULA: " +:+ val)
      else coord ← get_coordinate cell;
           print (coord +:+ ": " +:+ val)
  | None => ret tt
  end.

(** The whole script (lines 3-16). *)
Definition main : M unit :=
  wb ← load workbook_path false;
  let sheet := active wb in
  _ ← print ("Sheet: " +:+ title sheet);
  _ ← print ("Dimensions: " +:+ dimensions sheet);
  _ ← print (Py.newline +:+ "=== All cells with values ===" +:+ Py.newline);
  for_ (iter_rows sheet 1 40 1 15) (λ row,
    for_ row visit).

(** The bytes that reach the terminal: every printed string followed by
    a newline. *)
Definition stream (out : list string) : string :=
  foldr (λ s rest, s +:+ Py.newline +:+ rest) "" out.

End Script.

Import Openpyxl Script.

(** ** Vocabulary of the specification *)

(** Every character of [s] satisfies [P]. *)
Fixpoint all_chars (P : ascii → bool) (s : string) : bool :=
  match s with
  | EmptyString => true
  | String a s' => P a && all_chars P s'
  end.

Definition is_upper (a : ascii) : bool :=
  (65 <=? nat_of_ascii a) && (nat_of_ascii a <=? 90).

Definition is_digit (a : ascii) : bool :=
  (48 <=? nat_of_ascii a) && (nat_of_ascii a <=? 57).

(** The characters a coordinate is made of. *)
Definition is_coord_char (a : ascii) : bool := is_upper a || is_digit a.

(** [line] is a line printed for the cell named [coord]: the coordinate,
    a colon and a space, then some text. *)
Definition line_for (coord line : string) : Prop :=
  ∃ text, line = coord +:+ ": " +:+ text.

(** The same as a test. *)
Definition is_line_for (coord line : string) : bool :=
  String.prefix (coord +:+ ": ") line.

(** The scan window: rows 1-40 and columns 1-15. *)
Definition in_window (r c : nat) : Prop :=
  (1 ≤ r ≤ 40) ∧ (1 ≤ c ≤ 15).

(** Row-major order of positions. *)
Definition row_major (p q : nat * nat) : Prop :=
  p.1 < q.1 ∨ (p.1 = q.1 ∧ p.2 < q.2).

(** The program starts with nothing printed. *)
Definition start (fs : gmap string file) : World :=
  {| disk := fs; stdout := [] |}.

(** What a run over the file system [fs] prints and how it ends. *)
Definition output (fs : gmap string file) : list string :=
  stdout (main (start fs)).2.

Definition outcome (fs : gmap string file) : exn + unit :=
  (main (start fs)).1.

(** The load of line 3 succeeds and [sheet] is the active sheet. *)
Definition loads (fs : gmap string file) (sheet : Worksheet) : Prop :=
  load_workbook fs workbook_path false = inr {| active := sheet |}.

(** The three strings printed by lines 5-7. *)
Definition header (sheet : Worksheet) : list string :=
  [ "Sheet: " +:+ title sheet;
    "Dimensions: " +:+ dimensions sheet;
    Py.newline +:+ "=== All cells with values ===" +:+ Py.newline ].

(** The string printed for a cell named [coord] whose text is [val]. *)
Definition cell_line (coord val : string) : string :=
  if Py.startswith val "="
  then coord +:+ ": FORMULA: " +:+ val
  else coord +:+ ": " +:+ val.

(** Row-major order of the positions of two entries of the scan. *)
Definition entry_order (e1 e2 : (nat * nat) * string) : Prop :=
  row_major e1.1 e2.1.

(** The positions [iter_rows] visits, in the order of the visit. *)
Definition positions (min_row max_row min_col max_col : nat)
    : list (nat * nat) :=
  r ← seq min_row (S max_row - min_row);
  pair r <$> seq min_col (S max_col - min_col).

(** The line the scan prints at a position, if it prints one. *)
Definition entry (sheet : Worksheet) (p : nat * nat)
    : option ((nat * nat) * string) :=
  v ← cells sheet !! p;
  coord ← coordinate (ws_cell sheet p.1 p.2);
  Some (p, cell_line coord (str v)).

(** The positions the scan prints a line for, each with its line. *)
Definition entries (sheet : Worksheet) : list ((nat * nat) * string) :=
  omap (entry sheet) (positions 1 40 1 15).

(** [ls] printed on top of what [w] already holds. *)
Definition emit (ls : list string) (w : World) : World :=
  {| disk := disk w; stdout := stdout w ++ ls |}.

(** What visiting one cell prints. *)
Definition cell_lines (cell : Cell) : list string :=
  match value cell, coordinate cell with
  | Some v, Some coord => [cell_line coord (str v)]
  | _, _ => []
  end.


(** [s] begins with the character [=]. *)
Definition begins_with_equals (s : string) : Prop :=
  ∃ rest, s = String "="%char rest.

(** The header as four lines: name, used range, a blank line, the label. *)
Definition four_line_header (sheet : Worksheet) : list string :=
  [ "Sheet: " +:+ title sheet;
    "Dimensions: " +:+ dimensions sheet;
    "";
    "=== All cells with values ===" ].

(** Scenario A of the specification: [Sheet1], used range [A1:C3],
    A1 = [Flow Rate], B1 = 100, C2 = [=A1*2]. *)
Definition scenario_A_sheet : stored_sheet :=
  {| sheet_name := "Sheet1";
     sheet_ref := "A1:C3";
     sheet_data :=
       <[(1, 1) := Literal (VStr "Flow Rate")]>
       (<[(1, 2) := Literal (VInt 100)]>
       (<[(2, 3) := Formula "A1*2" (Some (VInt 200))]> ∅)) |}.

Definition scenario_A : gmap string file :=
  {[ workbook_path :=
       Xlsx {| active_sheet := scenario_A_sheet; other_sheets := [] |} ]}.

Definition sheet_A : Worksheet := read_sheet false scenario_A_sheet.

(** Scenario B: nothing at the configured path. *)
Definition scenario_B : gmap string file := ∅.

(** Scenario C: a sheet without any value. *)
Definition scenario_C_sheet : stored_sheet :=
  {| sheet_name := "Sheet1"; sheet_ref := "A1:A1"; sheet_data := ∅ |}.

Definition scenario_C : gmap string file :=
  {[ workbook_path :=
       Xlsx {| active_sheet := scenario_C_sheet; other_sheets := [] |} ]}.

(** A sheet with cells on and beyond the edge of the window: O40 is the
    last cell of the window, A41 and P1 lie just outside; B3 holds the
    empty string, C3 a number, D3 a boolean and E3 a negative number. *)
Definition scenario_E_sheet : stored_sheet :=
  {| sheet_name := "Edge";
     sheet_ref := "A1:P41";
     sheet_data :=
       <[(40, 15) := Literal (VStr "corner")]>
       (<[(41, 1) := Literal (VStr "below")]>
       (<[(1, 16) := Literal (VInt 7)]>
       (<[(3, 2) := Literal (VStr "")]>
       (<[(3, 3) := Literal (VInt 42)]>
       (<[(3, 4) := Literal (VBool true)]>
       (<[(3, 5) := Literal (VInt (-5))]> ∅)))))) |}.

Definition scenario_E : gmap string file :=
  {[ workbook_path :=
       Xlsx {| active_sheet := scenario_E_sheet; other_sheets := [] |} ]}.

Definition sheet_E : Worksheet := read_sheet false scenario_E_sheet.

(** Membership in the window can be tested. *)
#[global] Instance in_window_dec (r c : nat) : Decision (in_window r c).
Proof. unfold in_window. apply _. Defined.

#[global] Instance cell_value_eq_dec : EqDecision cell_value.
Proof. solve_decision. Defined.

(** The stored values of a sheet whose position lies in the window. *)
Definition populated_in_window (sheet : Worksheet)
    : gmap (nat * nat) cell_value :=
  filter (λ kv, in_window kv.1.1 kv.1.2) (cells sheet).

(** A sheet whose only values lie outside the window (A41 and P1). *)
Definition scenario_F_sheet : stored_sheet :=
  {| sheet_name := "Edge";
     sheet_ref := "A1:P41";
     sheet_data :=
       <[(41, 1) := Literal (VStr "below")]>
       (<[(1, 16) := Literal (VInt 7)]> ∅) |}.

Definition scenario_F : gmap string file :=
  {[ workbook_path :=
       Xlsx {| active_sheet := scenario_F_sheet; other_sheets := [] |} ]}.

Definition sheet_F : Worksheet := read_sheet false scenario_F_sheet.

(** The sheet of scenario E with other things outside the window: A41 is
    gone, P1 holds a text and Q50 a formula. *)
Definition scenario_G_sheet : stored_sheet :=
  {| sheet_name := "Edge";
     sheet_ref := "A1:P41";
     sheet_data :=
       <[(40, 15) := Literal (VStr "corner")]>
       (<[(1, 16) := Literal (VStr "right")]>
       (<[(50, 17) := Formula "A1" None]>
       (<[(3, 2) := Literal (VStr "")]>
       (<[(3, 3) := Literal (VInt 42)]>
       (<[(3, 4) := Literal (VBool true)]>
       (<[(3, 5) := Literal (VInt (-5))]> ∅)))))) |}.

Definition scenario_G : gmap string file :=
  {[ workbook_path :=
       Xlsx {| active_sheet := scenario_G_sheet; other_sheets := [] |} ]}.

Definition sheet_G : Worksheet := read_sheet false scenario_G_sheet.

(** ** Strings *)

Section strings.

Lemma str_app_nil (s : string) : "" +:+ s = s.
Proof. reflexivity. Qed.

Lemma str_app_cons (a : ascii) (s t : string) :
  String a s +:+ t = String a (s +:+ t).
Proof. reflexivity. Qed.

Lemma str_app_assoc (s t u : string) : (s +:+ t) +:+ u = s +:+ t +:+ u.
Proof.
  induction s as [|a s IH]; [done|].
  by rewrite !str_app_cons, IH.
Qed.

Lemma str_app_length (s t : string) :
  String.length (s +:+ t) = String.length s + String.length t.
Proof. induction s as [|a s IH]; [done|]. rewrite str_app_cons. simpl. lia. Qed.

Lemma all_chars_app P (s t : string) :
  all_chars P (s +:+ t) = all_chars P s && all_chars P t.
Proof.
  induction s as [|a s IH]; [done|].
  rewrite str_app_cons. simpl. rewrite IH. by destruct (P a).
Qed.

Lemma prefix_nil (s : string) : String.prefix "" s = true.
Proof. by destruct s. Qed.

Lemma prefix_spec (p s : string) :
  String.prefix p s = true ↔ ∃ t, s = p +:+ t.
Proof.
  revert s. induction p as [|a p IH]; intros s.
  - rewrite prefix_nil. split; [|done]. intros _. by exists s.
  - destruct s as [|b s]; simpl.
    + split; [done|]. by intros [t ?].
    + destruct (ascii_dec a b) as [->|Hab].
      * rewrite IH. split; intros [t Ht]; exists t.
        -- by rewrite str_app_cons, <-Ht.
        -- rewrite str_app_cons in Ht. by simplify_eq.
      * split; [done|]. intros [t Ht]. rewrite str_app_cons in Ht.
        by simplify_eq.
Qed.

(** A string of [P]-characters followed by a character outside [P] can be
    cut in one way only. *)
Lemma split_at_sep P (a a' : string) x x' (t t' : string) :
  all_chars P a = true → all_chars P a' = true →
  P x = false → P x' = false →
  a +:+ String x t = a' +:+ String x' t' →
  a = a' ∧ x = x' ∧ t = t'.
Proof.
  revert a'. induction a as [|b a IH]; intros [|b' a'] Ha Ha' Hx Hx' Heq;
    rewrite ?str_app_cons, ?str_app_nil in Heq; simplify_eq/=.
  - done.
  - rewrite Hx in Ha'. done.
  - rewrite Hx' in Ha. done.
  - apply andb_true_iff in Ha as [_ Ha], Ha' as [_ Ha'].
    destruct (IH a' Ha Ha' Hx Hx' H) as (-> & -> & ->). done.
Qed.

Lemma is_line_for_spec (coord line : string) :
  is_line_for coord line = true ↔ line_for coord line.
Proof.
  unfold is_line_for, line_for. rewrite prefix_spec.
  by setoid_rewrite str_app_assoc.
Qed.

End strings.

(** ** Coordinates *)

Section coordinates.

Lemma chr_upper (r : nat) : 1 ≤ r ≤ 26 → is_upper (Py.chr (r + 64)) = true.
Proof.
  intros Hr. unfold is_upper, Py.chr.
  rewrite nat_ascii_embedding by lia.
  apply andb_true_iff. split; apply Nat.leb_le; lia.
Qed.

Lemma chr_inj (r r' : nat) :
  r ≤ 26 → r' ≤ 26 → Py.chr (r + 64) = Py.chr (r' + 64) → r = r'.
Proof.
  intros Hr Hr' Heq. unfold Py.chr in Heq.
  apply (f_equal nat_of_ascii) in Heq.
  rewrite !nat_ascii_embedding in Heq by lia. lia.
Qed.

Lemma letters_loop_0 (n : nat) : letters_loop 0 n = [].
Proof. reflexivity. Qed.

Lemma letters_loop_S (fuel n : nat) :
  letters_loop (S fuel) n =
    if n =? 0 then []
    else if n mod 26 =? 0
         then Py.chr (26 + 64) :: letters_loop fuel (n / 26 - 1)
         else Py.chr (n mod 26 + 64) :: letters_loop fuel (n / 26).
Proof. reflexivity. Qed.

Lemma letters_loop_upper (fuel n : nat) :
  Forall (λ a, is_upper a = true) (letters_loop fuel n).
Proof.
  revert n. induction fuel as [|fuel IH]; intros n; [constructor|].
  rewrite letters_loop_S.
  destruct (n =? 0); [constructor|].
  destruct (n mod 26 =? 0) eqn:Hr; constructor; try apply IH.
  - apply (chr_upper 26). lia.
  - apply Nat.eqb_neq in Hr. apply chr_upper.
    pose proof (Nat.mod_upper_bound n 26). lia.
Qed.

(** One round of the loop undone: the index is 26 times what is left plus
    the number of the letter. *)
Lemma letters_loop_inj (fuel fuel' n n' : nat) :
  n ≤ fuel → n' ≤ fuel' →
  letters_loop fuel n = letters_loop fuel' n' → n = n'.
Proof.
  revert fuel' n n'. induction fuel as [|fuel IH];
    intros [|fuel'] n n' Hn Hn';
    rewrite ?letters_loop_0, ?letters_loop_S.
  - lia.
  - assert (n = 0) as -> by lia.
    destruct (Nat.eqb_spec n' 0); [done|].
    by destruct (n' mod 26 =? 0).
  - assert (n' = 0) as -> by lia.
    destruct (Nat.eqb_spec n 0); [done|].
    by destruct (n mod 26 =? 0).
  - pose proof (Nat.div_mod_eq n 26) as Dn.
    pose proof (Nat.div_mod_eq n' 26) as Dn'.
    pose proof (Nat.mod_upper_bound n 26) as Bn.
    pose proof (Nat.mod_upper_bound n' 26) as Bn'.
    destruct (Nat.eqb_spec n 0), (Nat.eqb_spec n' 0);
      destruct (Nat.eqb_spec (n mod 26) 0), (Nat.eqb_spec (n' mod 26) 0);
      try done; try lia; intros Heq; apply (inj2 cons) in Heq as [Hc Ht].
    + apply IH in Ht; lia.
    + apply (chr_inj 26) in Hc; lia.
    + apply (chr_inj _ 26) in Hc; lia.
    + apply chr_inj in Hc; [|lia..]. apply IH in Ht; lia.
Qed.

Lemma all_chars_of_list P (l : list ascii) :
  Forall (λ a, P a = true) l →
  all_chars P (String.string_of_list_ascii l) = true.
Proof.
  induction 1 as [|a l Ha _ IH]; simpl; [done|]. by rewrite Ha, IH.
Qed.

Lemma string_of_list_ascii_inj (l l' : list ascii) :
  String.string_of_list_ascii l = String.string_of_list_ascii l' → l = l'.
Proof.
  intros H. apply (f_equal String.list_ascii_of_string) in H.
  by rewrite !String.list_ascii_of_string_of_list_ascii in H.
Qed.

Lemma get_column_letter_Some (c : nat) :
  1 ≤ c → (N.of_nat c ≤ 18278)%N → is_Some (get_column_letter c).
Proof.
  intros Hc Hc'. unfold get_column_letter.
  assert ((1 <=? c) = true) as -> by (apply Nat.leb_le; lia).
  assert ((N.of_nat c <=? 18278)%N = true) as -> by (apply N.leb_le; lia).
  by eexists.
Qed.

Lemma get_column_letter_upper (c : nat) (s : string) :
  get_column_letter c = Some s → all_chars is_upper s = true.
Proof.
  unfold get_column_letter. case_match; [|done]. intros [= <-].
  apply all_chars_of_list, Forall_rev, letters_loop_upper.
Qed.

Lemma get_column_letter_inj (c c' : nat) (s : string) :
  get_column_letter c = Some s → get_column_letter c' = Some s → c = c'.
Proof.
  unfold get_column_letter. repeat case_match; try done.
  intros [= <-] [= H']. apply string_of_list_ascii_inj in H'.
  apply (f_equal (@rev _)) in H'. rewrite !rev_involutive in H'.
  symmetry. by eapply letters_loop_inj, H'.
Qed.

Lemma string_of_uint_digits (d : Decimal.uint) :
  all_chars is_digit (NilEmpty.string_of_uint d) = true.
Proof. induction d; simpl; auto. Qed.

Lemma str_nat_digits (n : nat) : all_chars is_digit (Py.str_nat n) = true.
Proof. apply string_of_uint_digits. Qed.

Lemma str_nat_inj (n n' : nat) : Py.str_nat n = Py.str_nat n' → n = n'.
Proof.
  unfold Py.str_nat. intros H.
  apply (f_equal NilEmpty.uint_of_string) in H.
  rewrite !NilEmpty.usu in H. simplify_eq.
  by apply Unsigned.to_uint_inj.
Qed.

Lemma str_nat_cons (n : nat) :
  ∃ a s, Py.str_nat n = String a s ∧ is_digit a = true.
Proof.
  pose proof (str_nat_digits n) as Hd.
  destruct (Py.str_nat n) as [|a s] eqn:E.
  - exfalso. unfold Py.str_nat in E.
    destruct (Nat.to_uint n) eqn:En; try discriminate E.
    pose proof (Unsigned.of_to n) as Hn. rewrite En in Hn.
    simpl in Hn. subst n. discriminate En.
  - exists a, s. split; [done|]. simpl in Hd.
    by apply andb_true_iff in Hd as [? _].
Qed.

Lemma digit_not_upper (a : ascii) : is_digit a = true → is_upper a = false.
Proof.
  unfold is_digit, is_upper. intros [_ H]%andb_true_iff.
  apply Nat.leb_le in H. apply andb_false_iff. left.
  apply Nat.leb_gt. lia.
Qed.

Lemma all_chars_impl (P Q : ascii → bool) (s : string) :
  (∀ a, P a = true → Q a = true) →
  all_chars P s = true → all_chars Q s = true.
Proof.
  intros HPQ. induction s as [|a s IH]; simpl; [done|].
  intros [Ha Hs]%andb_true_iff. by rewrite (HPQ a Ha), IH.
Qed.

(** A coordinate is built of capital letters and digits and is not
    empty. *)
Lemma coordinate_chars (cell : Cell) (coord : string) :
  coordinate cell = Some coord →
  all_chars is_coord_char coord = true ∧ coord ≠ "".
Proof.
  unfold coordinate. destruct (get_column_letter _) as [col|] eqn:Hc; [|done].
  simpl. intros [= <-]. split.
  - rewrite all_chars_app. apply andb_true_iff. split.
    + eapply all_chars_impl, get_column_letter_upper, Hc.
      intros a Ha. unfold is_coord_char. by rewrite Ha.
    + eapply all_chars_impl, str_nat_digits.
      intros a Ha. unfold is_coord_char. rewrite Ha. by destruct (is_upper a).
  - destruct (str_nat_cons (row cell)) as (a & s & -> & _).
    by destruct col.
Qed.

(** The coordinate names the position. *)
Lemma coordinate_inj (cell cell' : Cell) (coord : string) :
  coordinate cell = Some coord → coordinate cell' = Some coord →
  row cell = row cell' ∧ column cell = column cell'.
Proof.
  unfold coordinate.
  destruct (get_column_letter (column cell)) as [col|] eqn:Hc; [|done].
  destruct (get_column_letter (column cell')) as [col'|] eqn:Hc'; [|done].
  simpl. intros [= <-] [= Heq].
  destruct (str_nat_cons (row cell)) as (a & s & Ea & Ha).
  destruct (str_nat_cons (row cell')) as (a' & s' & Ea' & Ha').
  rewrite Ea, Ea' in Heq.
  apply (split_at_sep is_upper) in Heq as (-> & -> & ->);
    eauto using get_column_letter_upper, digit_not_upper.
  split.
  - apply str_nat_inj. by rewrite Ea, Ea'.
  - eauto using get_column_letter_inj.
Qed.

(** A line is a line for one coordinate at most. *)
Lemma line_for_inj (cell cell' : Cell) (coord coord' line : string) :
  coordinate cell = Some coord → coordinate cell' = Some coord' →
  line_for coord line → line_for coord' line → coord = coord'.
Proof.
  intros [Hc _]%coordinate_chars [Hc' _]%coordinate_chars [t ->] [t' Heq].
  by apply (split_at_sep is_coord_char) in Heq as (-> & _ & _).
Qed.

End coordinates.

(** ** The statements of the script *)

Section statements.

Lemma emit_nil (w : World) : emit [] w = w.
Proof. destruct w. unfold emit. simpl. by rewrite app_nil_r. Qed.

Lemma emit_emit (ls ls' : list string) (w : World) :
  emit ls' (emit ls w) = emit (ls ++ ls') w.
Proof. unfold emit. simpl. by rewrite app_assoc. Qed.

Lemma print_emit (s : string) (w : World) : print s w = (inr (), emit [s] w).
Proof. reflexivity. Qed.

(** A loop whose body only prints, prints the concatenation. *)
Lemma for_emit {A} (xs : list A) (body : A → M ()) (g : A → list string) :
  (∀ x w, x ∈ xs → body x w = (inr (), emit (g x) w)) →
  ∀ w, for_ xs body w = (inr (), emit (xs ≫= g) w).
Proof.
  induction xs as [|x xs IH]; intros Hbody w; simpl.
  - unfold ret. by rewrite emit_nil.
  - unfold bind. rewrite Hbody by left.
    rewrite IH by (intros; apply Hbody; by right).
    by rewrite emit_emit.
Qed.

(** Inside columns 1..18278 the visit of a cell never raises. *)
Lemma visit_emit (cell : Cell) (w : World) :
  is_Some (coordinate cell) →
  visit cell w = (inr (), emit (cell_lines cell) w).
Proof.
  intros [coord Hc]. unfold visit, cell_lines, cell_line.
  destruct (value cell) as [v|]; [|unfold ret; by rewrite emit_nil].
  rewrite Hc. unfold get_coordinate, mbind, M_bind, bind. rewrite Hc.
  by destruct (Py.startswith (str v) "=").
Qed.

Lemma coordinate_ws_cell (ws : Worksheet) (r c : nat) :
  1 ≤ c → (N.of_nat c ≤ 18278)%N → is_Some (coordinate (ws_cell ws r c)).
Proof.
  intros Hc Hc'. unfold coordinate. simpl.
  destruct (get_column_letter_Some c Hc Hc') as [col ->]. by eexists.
Qed.

Lemma cell_lines_entry (ws : Worksheet) (r c : nat) :
  cell_lines (ws_cell ws r c) = (snd <$> option_list (entry ws (r, c))).
Proof.
  unfold cell_lines, entry. simpl.
  destruct (cells ws !! (r, c)) as [v|]; [|done]. simpl.
  by destruct (coordinate (ws_cell ws r c)).
Qed.

(** The lines of a scan, row after row, are the lines of the positions in
    the order of the visit. *)
Lemma scan_lines (ws : Worksheet) (rs cs : list nat) :
  (((λ r, ws_cell ws r <$> cs) <$> rs) ≫= (λ row, row ≫= cell_lines))
  = (snd <$> omap (entry ws) (rs ≫= λ r, pair r <$> cs)).
Proof.
  induction rs as [|r rs IH]; [done|].
  rewrite fmap_cons, !bind_cons, IH, omap_app, fmap_app. f_equal.
  clear IH. induction cs as [|c cs IH]; [done|].
  rewrite !fmap_cons, bind_cons, IH, cell_lines_entry. simpl.
  by destruct (entry ws (r, c)).
Qed.

Lemma scan_emit (ws : Worksheet) (w : World) :
  for_ (iter_rows ws 1 40 1 15) (λ row, for_ row visit) w
  = (inr (), emit (snd <$> entries ws) w).
Proof.
  unfold entries, positions, iter_rows. rewrite <-scan_lines.
  apply for_emit. intros row w' [r [-> Hr]]%list_elem_of_fmap.
  apply for_emit. intros cell w'' [c [-> Hc]]%list_elem_of_fmap.
  apply elem_of_seq in Hc.
  apply visit_emit, coordinate_ws_cell; lia.
Qed.

(** The script after a successful load. *)
Lemma main_loads (fs : gmap string file) (sheet : Worksheet) :
  loads fs sheet →
  main (start fs)
  = (inr (), emit (header sheet ++ (snd <$> entries sheet)) (start fs)).
Proof.
  unfold loads. intros Hl.
  unfold main, mbind, M_bind, bind, load.
  change (disk (start fs)) with fs. rewrite Hl. cbv beta iota.
  do 3 (rewrite print_emit; cbv beta iota).
  cbn [active]. by rewrite scan_emit, !emit_emit.
Qed.


End statements.

(** ** The order of the scan *)

Section scan.

#[global] Instance row_major_irrefl : Irreflexive row_major.
Proof. intros [r c] H. unfold row_major in H. simpl in H. lia. Qed.

#[global] Instance row_major_trans : Transitive row_major.
Proof. intros [??] [??] [??]. unfold row_major. simpl. lia. Qed.

Lemma seq_sorted (a n : nat) : StronglySorted lt (seq a n).
Proof.
  revert a. induction n as [|n IH]; intros a; simpl; constructor; [done|].
  apply Forall_forall. intros x Hx%elem_of_seq. lia.
Qed.

Lemma elem_of_positions (a b c d : nat) (p : nat * nat) :
  p ∈ positions a b c d ↔ (a ≤ p.1 ≤ b) ∧ (c ≤ p.2 ≤ d).
Proof.
  unfold positions. rewrite list_elem_of_bind. split.
  - intros (r & [q [-> Hq]]%list_elem_of_fmap & Hr).
    apply elem_of_seq in Hq, Hr. simpl. lia.
  - intros [Hr Hc]. exists p.1. split.
    + apply list_elem_of_fmap. exists p.2. split; [by destruct p|].
      apply elem_of_seq. lia.
    + apply elem_of_seq. lia.
Qed.

Lemma grid_sorted (rs cs : list nat) :
  StronglySorted lt rs → StronglySorted lt cs →
  StronglySorted row_major (rs ≫= λ r, pair r <$> cs).
Proof.
  intros Hrs Hcs. induction Hrs as [|r rs _ IH Hr]; [constructor|].
  rewrite bind_cons. apply StronglySorted_app. split_and!.
  - intros p q [c [-> _]]%list_elem_of_fmap
      (r' & [c' [-> _]]%list_elem_of_fmap & Hr')%list_elem_of_bind.
    left. simpl. rewrite Forall_forall in Hr. by apply Hr.
  - apply (StronglySorted_fmap _ lt); [|done].
    intros x y Hxy. right. by simpl.
  - done.
Qed.

Lemma positions_sorted (a b c d : nat) :
  StronglySorted row_major (positions a b c d).
Proof. apply grid_sorted; apply seq_sorted. Qed.

Lemma positions_length : length (positions 1 40 1 15) = 600.
Proof. reflexivity. Qed.

(** A strictly sorted list around one of its elements. *)
Lemma sorted_split {A} (R : relation A) (l : list A) (a : A) :
  StronglySorted R l → a ∈ l →
  ∃ pre post, l = pre ++ a :: post ∧
              Forall (λ x, R x a) pre ∧ Forall (R a) post.
Proof.
  intros Hl (pre & post & ->)%list_elem_of_split. exists pre, post.
  apply StronglySorted_app in Hl as (Hpre & _ & Hpost).
  apply StronglySorted_cons in Hpost as [Hpost _].
  split_and!; [done| |done].
  apply Forall_forall. intros x Hx. apply Hpre; [done|by left].
Qed.

(** A strictly sorted list around two of its elements. *)
Lemma sorted_split2 {A} (R : relation A)
    `{!Irreflexive R, !Transitive R} (l : list A) (a b : A) :
  StronglySorted R l → a ∈ l → b ∈ l → R a b →
  ∃ pre mid post,
    l = pre ++ a :: mid ++ b :: post ∧
    Forall (λ x, R x a ∧ R x b) pre ∧
    Forall (λ x, R a x ∧ R x b) mid ∧
    Forall (λ x, R a x ∧ R b x) post.
Proof.
  intros Hl Ha Hb Hab.
  destruct (sorted_split R l a Hl Ha) as (pre & rest & -> & Hpre & Hrest).
  rewrite Forall_forall in Hpre, Hrest.
  assert (b ∈ rest) as Hb'.
  { apply elem_of_app in Hb as [Hb|Hb].
    - destruct (irreflexivity R a). trans b; [done|by apply Hpre].
    - apply elem_of_cons in Hb as [->|Hb]; [|done].
      by destruct (irreflexivity R a). }
  assert (StronglySorted R rest) as Hs.
  { apply StronglySorted_app in Hl as (_ & _ & Hl).
    by apply StronglySorted_cons in Hl as [_ Hl]. }
  destruct (sorted_split R rest b Hs Hb') as (mid & post & -> & Hmid & Hpost).
  rewrite Forall_forall in Hmid, Hpost.
  exists pre, mid, post. split_and!; [done|..]; apply Forall_forall; intros x Hx.
  - split; [by apply Hpre|]. trans a; [by apply Hpre|done].
  - split; [|by apply Hmid]. apply Hrest, elem_of_app. by left.
  - split; [|by apply Hpost].
    apply Hrest, elem_of_app. right. by right.
Qed.

Lemma entry_fst (ws : Worksheet) (p q : nat * nat) (line : string) :
  entry ws p = Some (q, line) → q = p.
Proof.
  unfold entry. destruct (cells ws !! p); [|done]. simpl.
  destruct (coordinate _); [|done]. simpl. by intros [= <- _].
Qed.

#[global] Instance entry_order_irrefl : Irreflexive entry_order.
Proof. intros e H. by apply (irreflexivity row_major) in H. Qed.

#[global] Instance entry_order_trans : Transitive entry_order.
Proof. intros e1 e2 e3. unfold entry_order. apply transitivity. Qed.

Lemma omap_entry_sorted (ws : Worksheet) (ps : list (nat * nat)) :
  StronglySorted row_major ps →
  StronglySorted entry_order (omap (entry ws) ps).
Proof.
  induction 1 as [|p ps _ IH Hp]; [constructor|]. csimpl.
  destruct (entry ws p) as [[q line]|] eqn:E; [|done].
  apply entry_fst in E as ->. constructor; [done|].
  rewrite Forall_forall in Hp. apply Forall_forall.
  intros [q l] (q' & Hq' & E)%list_elem_of_omap.
  apply entry_fst in E as ->. unfold entry_order. simpl. by apply Hp.
Qed.

Lemma entries_sorted (ws : Worksheet) :
  StronglySorted entry_order (entries ws).
Proof. apply omap_entry_sorted, positions_sorted. Qed.

Lemma omap_length {A B} (f : A → option B) (l : list A) :
  length (omap f l) ≤ length l.
Proof.
  induction l as [|x l IH]; csimpl; [done|].
  destruct (f x); simpl; lia.
Qed.

Lemma entries_length (ws : Worksheet) : length (entries ws) ≤ 600.
Proof.
  unfold entries. rewrite <-positions_length. apply omap_length.
Qed.

(** The entries are the populated cells of the window, each with its
    line. *)
Lemma elem_of_entries (ws : Worksheet) (p : nat * nat) (line : string) :
  (p, line) ∈ entries ws ↔
  in_window p.1 p.2 ∧
  ∃ v coord, cells ws !! p = Some v ∧
             coordinate (ws_cell ws p.1 p.2) = Some coord ∧
             line = cell_line coord (str v).
Proof.
  unfold entries. rewrite list_elem_of_omap. split.
  - intros (q & Hq%elem_of_positions & E).
    pose proof (entry_fst _ _ _ _ E) as ->. split; [done|].
    unfold entry in E. destruct (cells ws !! q) as [v|]; [|done].
    simpl in E. destruct (coordinate _) as [coord|]; [|done].
    simpl in E. exists v, coord. by simplify_eq.
  - intros (Hw & v & coord & Hv & Hc & ->). exists p. split.
    + by apply elem_of_positions.
    + unfold entry. rewrite Hv. simpl. rewrite Hc. done.
Qed.

Lemma in_window_coordinate (ws : Worksheet) (r c : nat) :
  in_window r c → is_Some (coordinate (ws_cell ws r c)).
Proof. intros [_ Hc]. apply coordinate_ws_cell; lia. Qed.

Lemma cell_line_for (coord val : string) : line_for coord (cell_line coord val).
Proof.
  unfold cell_line, line_for. destruct (Py.startswith val "=").
  - by exists ("FORMULA: " +:+ val).
  - by exists val.
Qed.

(** The line of an entry names the position of the entry. *)
Lemma entry_unique (ws : Worksheet) (p : nat * nat) (line : string)
    (r c : nat) (coord : string) :
  (p, line) ∈ entries ws →
  coordinate (ws_cell ws r c) = Some coord → line_for coord line →
  p = (r, c).
Proof.
  intros (_ & v & coord' & _ & Hc' & ->)%elem_of_entries Hc Hl.
  pose proof (line_for_inj _ _ _ _ _ Hc' Hc (cell_line_for _ _) Hl) as ->.
  destruct (coordinate_inj _ _ _ Hc' Hc) as [Hr Hcol]. simpl in *.
  destruct p. simpl in *. by subst.
Qed.

End scan.

(** ** What a run prints *)

Section runs.

Lemma output_loads (fs : gmap string file) (sheet : Worksheet) :
  loads fs sheet → output fs = header sheet ++ (entries sheet).*2.
Proof. intros Hl. unfold output. by rewrite (main_loads fs sheet Hl). Qed.

Lemma outcome_loads (fs : gmap string file) (sheet : Worksheet) :
  loads fs sheet → outcome fs = inr ().
Proof. intros Hl. unfold outcome. by rewrite (main_loads fs sheet Hl). Qed.

(** The first characters of a line for a coordinate. *)
Lemma line_for_head (coord line : string) :
  all_chars is_coord_char coord = true → coord ≠ "" →
  line_for coord line →
  ∃ a b s, line = String a (String b s) ∧ is_coord_char a = true ∧
           (is_coord_char b = true ∨ b = ":"%char).
Proof.
  intros Hall Hne [text ->]. destruct coord as [|a coord]; [done|].
  simpl in Hall. apply andb_true_iff in Hall as [Ha Hall].
  destruct coord as [|b coord].
  - exists a, ":"%char, (" " +:+ text). auto.
  - simpl in Hall. apply andb_true_iff in Hall as [Hb _].
    exists a, b, (coord +:+ ": " +:+ text). auto.
Qed.

(** No string of the header reads as the line of a cell. *)
Lemma header_not_line_for (sheet : Worksheet) (cell : Cell)
    (coord line : string) :
  coordinate cell = Some coord → line ∈ header sheet →
  ¬ line_for coord line.
Proof.
  intros [Hall Hne]%coordinate_chars Hin Hl.
  destruct (line_for_head _ _ Hall Hne Hl) as (a & b & s & -> & Ha & Hb).
  unfold header in Hin. rewrite !elem_of_cons, elem_of_nil in Hin.
  rewrite !str_app_cons in Hin.
  destruct Hin as [Hin|[Hin|[Hin|[]]]]; injection Hin as -> -> _.
  - by destruct Hb as [Hb|Hb]; vm_compute in Hb.
  - by destruct Hb as [Hb|Hb]; vm_compute in Hb.
  - by vm_compute in Ha.
Qed.

(** A printed line that reads as the line of a position is the line the
    scan printed for that very position. *)
Lemma line_origin (fs : gmap string file) (sheet : Worksheet)
    (r c : nat) (coord line : string) :
  loads fs sheet → line ∈ output fs →
  coordinate (ws_cell sheet r c) = Some coord → line_for coord line →
  ((r, c), line) ∈ entries sheet.
Proof.
  intros Hl Hin Hc Hfor. rewrite (output_loads _ _ Hl) in Hin.
  apply elem_of_app in Hin as [Hin|Hin].
  - by destruct (header_not_line_for _ _ _ _ Hc Hin).
  - apply list_elem_of_fmap in Hin as ([p l] & -> & Hin). simpl in *.
    by rewrite <-(entry_unique _ _ _ _ _ _ Hin Hc Hfor).
Qed.

(** A populated cell of the window has an entry. *)
Lemma populated_entry (sheet : Worksheet) (r c : nat) (v : cell_value) :
  in_window r c → cells sheet !! (r, c) = Some v →
  ∃ coord, coordinate (ws_cell sheet r c) = Some coord ∧
           ((r, c), cell_line coord (str v)) ∈ entries sheet.
Proof.
  intros Hw Hv. destruct (in_window_coordinate sheet r c Hw) as [coord Hc].
  exists coord. split; [done|]. apply elem_of_entries.
  split; [done|]. by exists v, coord.
Qed.

Lemma str_app_nil_r (s : string) : s +:+ "" = s.
Proof. induction s as [|a s IH]; [done|]. by rewrite str_app_cons, IH. Qed.

Lemma startswith_equals (s : string) :
  Py.startswith s "=" = true ↔ begins_with_equals s.
Proof.
  unfold Py.startswith, begins_with_equals. rewrite prefix_spec.
  split; intros [t ->]; by exists t.
Qed.

(** The tagged line and the bare line of a cell differ. *)
Lemma tagged_not_bare (coord val : string) :
  coord +:+ ": FORMULA: " +:+ val ≠ coord +:+ ": " +:+ val.
Proof.
  intros H%(inj (String.app coord)).
  apply (f_equal String.length) in H.
  rewrite !str_app_length in H. simpl in H. lia.
Qed.

End runs.

(** ** One line per populated cell *)

Section order.

(** An entry at another position is not a line of this position. *)
Lemma other_entry (ws : Worksheet) (e : (nat * nat) * string)
    (r c : nat) (coord : string) :
  e ∈ entries ws → coordinate (ws_cell ws r c) = Some coord →
  row_major e.1 (r, c) ∨ row_major (r, c) e.1 →
  ¬ line_for coord e.2.
Proof.
  destruct e as [p l]. simpl. intros He Hc Hord Hfor.
  rewrite (entry_unique _ _ _ _ _ _ He Hc Hfor) in Hord.
  unfold row_major in Hord. simpl in Hord. lia.
Qed.

Lemma header_lines_other (sheet : Worksheet) (r c : nat) (coord : string) :
  coordinate (ws_cell sheet r c) = Some coord →
  Forall (λ line, ¬ line_for coord line) (header sheet).
Proof.
  intros Hc. apply Forall_forall. intros line Hin.
  by eapply header_not_line_for.
Qed.

(** The output around the line of one populated cell of the window. *)
Lemma output_split (fs : gmap string file) (sheet : Worksheet)
    (r c : nat) (v : cell_value) (coord : string) :
  loads fs sheet → in_window r c → cells sheet !! (r, c) = Some v →
  coordinate (ws_cell sheet r c) = Some coord →
  ∃ pre post,
    output fs = pre ++ cell_line coord (str v) :: post ∧
    Forall (λ line, ¬ line_for coord line) (pre ++ post).
Proof.
  intros Hl Hw Hv Hc.
  assert (((r, c), cell_line coord (str v)) ∈ entries sheet) as He.
  { apply elem_of_entries. split; [done|]. by exists v, coord. }
  destruct (sorted_split entry_order _ _ (entries_sorted sheet) He)
    as (pre & post & E & Hpre & Hpost).
  exists (header sheet ++ pre.*2), post.*2. split.
  - rewrite (output_loads _ _ Hl), E, fmap_app, fmap_cons.
    by rewrite <-app_assoc.
  - rewrite Forall_forall in Hpre, Hpost.
    rewrite !Forall_app, !Forall_fmap. split_and!.
    + by eapply header_lines_other.
    + apply Forall_forall. intros e Hin. simpl.
      apply (other_entry sheet e r c); [|done|left; by apply Hpre].
      rewrite E. apply elem_of_app. by left.
    + apply Forall_forall. intros e Hin. simpl.
      apply (other_entry sheet e r c); [|done|right; by apply Hpost].
      rewrite E. apply elem_of_app. right. by right.
Qed.

End order.

(** ** The file system is only read *)

Section frame.










End frame.

(** ** The stream of bytes *)

Section streams.

Lemma stream_app (out out' : list string) :
  stream (out ++ out') = stream out +:+ stream out'.
Proof.
  induction out as [|s out IH]; [done|]. simpl.
  by rewrite IH, !str_app_assoc.
Qed.

Lemma header_stream (sheet : Worksheet) :
  stream (header sheet) = stream (four_line_header sheet ++ [""]).
Proof.
  unfold header, four_line_header, stream. simpl.
  by rewrite !str_app_assoc.
Qed.

Lemma str_int_no_equals (n : Z) : Py.startswith (Py.str_int n) "=" = false.
Proof.
  unfold Py.str_int. destruct (Z.to_int n) as [d|d]; [|done].
  by destruct d.
Qed.

Lemma str_bool_no_equals (b : bool) :
  Py.startswith (Py.str_bool b) "=" = false.
Proof. by destruct b. Qed.



End streams.

(** ** The scenarios of the specification, run *)

Section scenarios.

Example column_letters :
  get_column_letter <$> [0; 1; 15; 26; 27; 702; 703]
  = [None; Some "A"; Some "O"; Some "Z"; Some "AA"; Some "ZZ"; Some "AAA"].
Proof. reflexivity. Qed.

Example last_cell_of_window :
  coordinate (ws_cell sheet_E 40 15) = Some "O40".
Proof. reflexivity. Qed.

Example scenario_A_output :
  main (start scenario_A)
  = (inr (),
     {| disk := scenario_A;
        stdout := [ "Sheet: Sheet1";
                    "Dimensions: A1:C3";
                    Py.newline +:+ "=== All cells with values ===" +:+ Py.newline;
                    "A1: Flow Rate";
                    "B1: 100";
                    "C2: FORMULA: =A1*2" ] |}).
Proof. reflexivity. Qed.

Example scenario_B_output :
  main (start scenario_B)
  = (inl (LoadError FileNotFoundOrUnreadable), start scenario_B).
Proof. reflexivity. Qed.

Example scenario_C_output :
  output scenario_C = header (read_sheet false scenario_C_sheet).
Proof. reflexivity. Qed.

Example scenario_E_output :
  output scenario_E
  = header sheet_E ++ ["B3: "; "C3: 42"; "D3: True"; "E3: -5"; "O40: corner"].
Proof. reflexivity. Qed.

(** With [data_only=True] the formula of C2 would read as its cached
    result. *)
Example cached_result :
  cells (read_sheet true scenario_A_sheet) !! (2, 3) = Some (VInt 200) ∧
  cells (read_sheet false scenario_A_sheet) !! (2, 3) = Some (VStr "=A1*2").
Proof. split; reflexivity. Qed.

End scenarios.

(** ** The claims *)

(** C1: after a load that keeps formula text ([data_only=False]), every
    cell line the program prints belongs to a populated cell of the window
    and is the tagged line [<coordinate>: FORMULA: <text>] if and only if
    the text of the cell begins with [=]; for every other printed cell it
    is the bare line [<coordinate>: <text>]. *)
Theorem C1_formula_tag (fs : gmap string file) (sheet : Worksheet) :
  loads fs sheet →
  ∃ lines, output fs = header sheet ++ lines ∧
    Forall (λ line,
      ∃ r c v coord,
        in_window r c ∧ cells sheet !! (r, c) = Some v ∧
        coordinate (ws_cell sheet r c) = Some coord ∧
        (line = coord +:+ ": FORMULA: " +:+ str v
           ↔ begins_with_equals (str v)) ∧
        (¬ begins_with_equals (str v) → line = coord +:+ ": " +:+ str v))
      lines.
Proof.
  intros Hl. exists (entries sheet).*2. split; [by apply output_loads|].
  apply Forall_forall. intros line ([[r c] l] & -> & Hin)%list_elem_of_fmap.
  apply elem_of_entries in Hin as (Hw & v & coord & Hv & Hc & ->).
  exists r, c, v, coord. split_and!; try done; simpl; unfold cell_line.
  - rewrite <-startswith_equals.
    destruct (Py.startswith (str v) "="); [done|].
    split; [|done]. intros H. symmetry in H. by apply tagged_not_bare in H.
  - rewrite <-startswith_equals.
    by destruct (Py.startswith (str v) "=").
Qed.

Lemma C1_formula_tag_witness :
  loads scenario_A sheet_A ∧
  ∃ lines, output scenario_A = header sheet_A ++ lines ∧
    Forall (λ line,
      ∃ r c v coord,
        in_window r c ∧ cells sheet_A !! (r, c) = Some v ∧
        coordinate (ws_cell sheet_A r c) = Some coord ∧
        (line = coord +:+ ": FORMULA: " +:+ str v
           ↔ begins_with_equals (str v)) ∧
        (¬ begins_with_equals (str v) → line = coord +:+ ": " +:+ str v))
      lines.
Proof.
  split; [reflexivity|].
  apply (C1_formula_tag scenario_A sheet_A). reflexivity.
Defined.

(** C2: a populated cell below row 40 or right of column 15 (column O) gets
    no output line, whatever else the sheet holds; every line of the output
    is a header string or the line of a position inside rows 1-40 and
    columns 1-15. *)
Theorem C2_outside_window (fs : gmap string file) (sheet : Worksheet)
    (r c : nat) (v : cell_value) (coord : string) :
  loads fs sheet →
  cells sheet !! (r, c) = Some v →
  40 < r ∨ 15 < c →
  coordinate (ws_cell sheet r c) = Some coord →
  Forall (λ line, ¬ line_for coord line) (output fs) ∧
  Forall (λ line,
    line ∈ header sheet ∨
    ∃ r' c' coord', in_window r' c' ∧
      coordinate (ws_cell sheet r' c') = Some coord' ∧
      line_for coord' line) (output fs).
Proof.
  intros Hl Hv Hout Hc. split; apply Forall_forall; intros line Hin.
  - intros Hfor.
    pose proof (line_origin _ _ _ _ _ _ Hl Hin Hc Hfor) as He.
    apply elem_of_entries in He as [[Hr Hcol] _]. simpl in *. lia.
  - rewrite (output_loads _ _ Hl) in Hin.
    apply elem_of_app in Hin as [Hin|Hin]; [by left|right].
    apply list_elem_of_fmap in Hin as ([[r' c'] l] & -> & Hin).
    apply elem_of_entries in Hin as (Hw & v' & coord' & _ & Hc' & ->).
    exists r', c', coord'. split_and!; try done. apply cell_line_for.
Qed.

Lemma C2_outside_window_witness :
  cells sheet_E !! (41, 1) = Some (VStr "below") ∧
  coordinate (ws_cell sheet_E 41 1) = Some "A41" ∧
  Forall (λ line, ¬ line_for "A41" line) (output scenario_E) ∧
  Forall (λ line,
    line ∈ header sheet_E ∨
    ∃ r' c' coord', in_window r' c' ∧
      coordinate (ws_cell sheet_E r' c') = Some coord' ∧
      line_for coord' line) (output scenario_E).
Proof.
  split; [reflexivity|]. split; [reflexivity|].
  apply (C2_outside_window scenario_E sheet_E 41 1 (VStr "below") "A41").
  - reflexivity.
  - reflexivity.
  - left. lia.
  - reflexivity.
Defined.

(** C3: a cell of rows 1-40 and columns 1-15 whose value is absent gets no
    output line. *)
Theorem C3_skip_empty (fs : gmap string file) (sheet : Worksheet)
    (r c : nat) (coord : string) :
  loads fs sheet →
  in_window r c →
  cells sheet !! (r, c) = None →
  coordinate (ws_cell sheet r c) = Some coord →
  Forall (λ line, ¬ line_for coord line) (output fs).
Proof.
  intros Hl Hw Hv Hc. apply Forall_forall. intros line Hin Hfor.
  pose proof (line_origin _ _ _ _ _ _ Hl Hin Hc Hfor) as He.
  apply elem_of_entries in He as (_ & v & _ & Hv' & _). simpl in Hv'.
  by rewrite Hv in Hv'.
Qed.

Lemma C3_skip_empty_witness :
  cells sheet_A !! (2, 2) = None ∧
  coordinate (ws_cell sheet_A 2 2) = Some "B2" ∧
  Forall (λ line, ¬ line_for "B2" line) (output scenario_A).
Proof.
  split; [reflexivity|]. split; [reflexivity|].
  apply (C3_skip_empty scenario_A sheet_A 2 2 "B2").
  - reflexivity.
  - unfold in_window. lia.
  - reflexivity.
  - reflexivity.
Defined.

(** C4: of two populated cells of the window, the one that comes first in
    row-major order (an earlier row, or the same row and a smaller column)
    has its line printed first: the output is some lines, the line of the
    first cell, some lines, the line of the second cell, some lines, and
    none of the other lines is a line of either cell. *)
Theorem C4_row_major_order (fs : gmap string file) (sheet : Worksheet)
    (r1 c1 r2 c2 : nat) (v1 v2 : cell_value) (coord1 coord2 : string) :
  loads fs sheet →
  in_window r1 c1 → cells sheet !! (r1, c1) = Some v1 →
  coordinate (ws_cell sheet r1 c1) = Some coord1 →
  in_window r2 c2 → cells sheet !! (r2, c2) = Some v2 →
  coordinate (ws_cell sheet r2 c2) = Some coord2 →
  r1 < r2 ∨ (r1 = r2 ∧ c1 < c2) →
  ∃ pre mid post,
    output fs = pre ++ cell_line coord1 (str v1)
                    :: mid ++ cell_line coord2 (str v2) :: post ∧
    Forall (λ line, ¬ line_for coord1 line ∧ ¬ line_for coord2 line)
      (pre ++ mid ++ post).
Proof.
  intros Hl Hw1 Hv1 Hc1 Hw2 Hv2 Hc2 Hord.
  assert (((r1, c1), cell_line coord1 (str v1)) ∈ entries sheet) as He1.
  { apply elem_of_entries. split; [done|]. by exists v1, coord1. }
  assert (((r2, c2), cell_line coord2 (str v2)) ∈ entries sheet) as He2.
  { apply elem_of_entries. split; [done|]. by exists v2, coord2. }
  destruct (sorted_split2 entry_order _ _ _ (entries_sorted sheet) He1 He2)
    as (pre & mid & post & E & Hpre & Hmid & Hpost); [done|].
  exists (header sheet ++ pre.*2), mid.*2, post.*2. split.
  - rewrite (output_loads _ _ Hl), E.
    rewrite fmap_app, fmap_cons, fmap_app, fmap_cons.
    by rewrite <-app_assoc.
  - assert (∀ e, e ∈ pre ++ mid ++ post → e ∈ entries sheet) as Hsub.
    { intros e. rewrite E, !elem_of_app, !elem_of_cons, !elem_of_app,
        !elem_of_cons. tauto. }
    rewrite Forall_forall in Hpre, Hmid, Hpost.
    rewrite <-app_assoc, Forall_app, <-!fmap_app, Forall_fmap. split.
    + apply Forall_forall. intros line Hin.
      split; by eapply header_not_line_for.
    + apply Forall_forall. intros e Hin. simpl.
      pose proof (Hsub e Hin) as He.
      apply elem_of_app in Hin as [Hin|[Hin|Hin]%elem_of_app].
      * destruct (Hpre e Hin). split; eapply other_entry; eauto.
      * destruct (Hmid e Hin). split; eapply other_entry; eauto.
      * destruct (Hpost e Hin). split; eapply other_entry; eauto.
Qed.

Lemma C4_row_major_order_witness :
  ∃ pre mid post,
    output scenario_A = pre ++ cell_line "B1" (str (VInt 100))
       :: mid ++ cell_line "C2" (str (VStr "=A1*2")) :: post ∧
    Forall (λ line, ¬ line_for "B1" line ∧ ¬ line_for "C2" line)
      (pre ++ mid ++ post).
Proof.
  apply (C4_row_major_order scenario_A sheet_A 1 2 2 3).
  - reflexivity.
  - unfold in_window. lia.
  - reflexivity.
  - reflexivity.
  - unfold in_window. lia.
  - reflexivity.
  - reflexivity.
  - left. lia.
Defined.



(** C6 as stated fails: in scenario A the bytes printed are not the four
    header lines (name, used range, blank line, label) followed at once by
    the first data line [A1: Flow Rate]; the four lines are followed by a
    second blank line. *)
Lemma C6_header_counterexample :
  loads scenario_A sheet_A ∧
  (entries sheet_A).*2 = ["A1: Flow Rate"; "B1: 100"; "C2: FORMULA: =A1*2"] ∧
  stream (output scenario_A)
    ≠ stream (four_line_header sheet_A ++ (entries sheet_A).*2) ∧
  ¬ (∃ rest, stream (output scenario_A)
             = stream (four_line_header sheet_A) +:+ "A1: Flow Rate" +:+ rest).
Proof.
  split; [reflexivity|]. split; [reflexivity|]. split.
  - vm_compute. discriminate.
  - intros [rest H]. vm_compute in H. discriminate H.
Qed.

(** C6, amended: after a successful load the output begins with five
    lines: the sheet name behind [Sheet: ], the used range behind
    [Dimensions: ], a blank line, the label [=== All cells with values ===]
    and a second blank line; the cell lines follow the second blank line. *)
Theorem C6_header (fs : gmap string file) (sheet : Worksheet) :
  loads fs sheet →
  output fs = header sheet ++ (entries sheet).*2 ∧
  stream (output fs)
    = stream ([ "Sheet: " +:+ title sheet;
                "Dimensions: " +:+ dimensions sheet;
                "";
                "=== All cells with values ===";
                "" ] ++ (entries sheet).*2).
Proof.
  intros Hl. split; [by apply output_loads|].
  rewrite (output_loads _ _ Hl), stream_app, header_stream, <-stream_app.
  reflexivity.
Qed.

Lemma C6_header_witness :
  output scenario_A = header sheet_A ++ (entries sheet_A).*2 ∧
  stream (output scenario_A)
    = stream ([ "Sheet: " +:+ title sheet_A;
                "Dimensions: " +:+ dimensions sheet_A;
                "";
                "=== All cells with values ===";
                "" ] ++ (entries sheet_A).*2).
Proof. apply (C6_header scenario_A sheet_A). reflexivity. Defined.




(** C9: a cell of the window is skipped only when its value is absent.  A
    cell whose value is present always gets a line, which carries the
    string conversion of the value: the empty string gives the line
    [<coordinate>: ] with nothing behind it, an integer and a boolean give
    the bare line with their conversion, and a float or a date gives the
    line of its conversion. *)
Theorem C9_skip_is_absence (fs : gmap string file) (sheet : Worksheet)
    (r c : nat) (v : cell_value) (coord : string) :
  loads fs sheet →
  in_window r c →
  cells sheet !! (r, c) = Some v →
  coordinate (ws_cell sheet r c) = Some coord →
  (∃ line, line ∈ output fs ∧
     (line = coord +:+ ": " +:+ str v
      ∨ line = coord +:+ ": FORMULA: " +:+ str v)) ∧
  match v with
  | VStr s =>
      if decide (s = "") then coord +:+ ": " ∈ output fs
      else cell_line coord s ∈ output fs
  | VInt n => coord +:+ ": " +:+ Py.str_int n ∈ output fs
  | VBool b => coord +:+ ": " +:+ Py.str_bool b ∈ output fs
  | VFloat repr | VDate repr => cell_line coord repr ∈ output fs
  end.
Proof.
  intros Hl Hw Hv Hc.
  assert (cell_line coord (str v) ∈ output fs) as Hin.
  { destruct (populated_entry sheet r c v Hw Hv) as (coord' & Hc' & He).
    rewrite Hc in Hc'. injection Hc' as <-.
    rewrite (output_loads _ _ Hl). apply elem_of_app. right.
    apply list_elem_of_fmap. by exists ((r, c), cell_line coord (str v)). }
  split.
  - exists (cell_line coord (str v)). split; [done|].
    unfold cell_line. destruct (Py.startswith (str v) "="); auto.
  - destruct v as [s|n|b|repr|repr]; simpl in Hin; try done.
    + destruct (decide (s = "")) as [->|]; [|done].
      unfold cell_line in Hin. simpl in Hin. by rewrite str_app_nil_r in Hin.
    + unfold cell_line in Hin. by rewrite str_int_no_equals in Hin.
    + unfold cell_line in Hin. by rewrite str_bool_no_equals in Hin.
Qed.

Lemma C9_skip_is_absence_witness :
  "B3: " ∈ output scenario_E ∧
  "C3: 42" ∈ output scenario_E ∧
  "D3: True" ∈ output scenario_E ∧
  "E3: -5" ∈ output scenario_E.
Proof.
  assert (loads scenario_E sheet_E) as Hl by reflexivity.
  assert (∀ c, 1 ≤ c ≤ 15 → in_window 3 c) as Hw
    by (unfold in_window; lia).
  split_and!.
  - apply (C9_skip_is_absence scenario_E sheet_E 3 2 (VStr "") "B3");
      [exact Hl|apply Hw; lia|reflexivity|reflexivity].
  - apply (C9_skip_is_absence scenario_E sheet_E 3 3 (VInt 42) "C3");
      [exact Hl|apply Hw; lia|reflexivity|reflexivity].
  - apply (C9_skip_is_absence scenario_E sheet_E 3 4 (VBool true) "D3");
      [exact Hl|apply Hw; lia|reflexivity|reflexivity].
  - apply (C9_skip_is_absence scenario_E sheet_E 3 5 (VInt (-5)) "E3");
      [exact Hl|apply Hw; lia|reflexivity|reflexivity].
Defined.

(** C10: after a successful load the cell lines are at most 600, each of
    them the line of a position of the window, and each populated cell of
    the window has exactly one line in the whole output. *)
Theorem C10_one_line_per_cell (fs : gmap string file) (sheet : Worksheet) :
  loads fs sheet →
  (∃ lines, output fs = header sheet ++ lines ∧ length lines ≤ 600 ∧
     Forall (λ line, ∃ r c coord,
                in_window r c ∧
                coordinate (ws_cell sheet r c) = Some coord ∧
                line_for coord line) lines) ∧
  Forall (λ p, ∀ v coord,
            cells sheet !! p = Some v →
            coordinate (ws_cell sheet p.1 p.2) = Some coord →
            length (filter (λ line, is_line_for coord line = true)
                      (output fs)) = 1)
    (positions 1 40 1 15).
Proof.
  intros Hl. split.
  - exists (entries sheet).*2. split_and!.
    + by apply output_loads.
    + rewrite length_fmap. apply entries_length.
    + apply Forall_forall.
      intros line ([[r c] l] & -> & Hin)%list_elem_of_fmap.
      apply elem_of_entries in Hin as (Hw & v & coord & _ & Hc & ->).
      exists r, c, coord. split_and!; try done. apply cell_line_for.
  - apply Forall_forall. intros [r c] Hw%elem_of_positions v coord Hv Hc.
    destruct (output_split fs sheet r c v coord Hl Hw Hv Hc)
      as (pre & post & -> & Hnot).
    apply Forall_app in Hnot as [Hpre Hpost].
    assert (∀ l, Forall (λ line, ¬ line_for coord line) l →
                 filter (λ line, is_line_for coord line = true) l = [])
      as Hnone.
    { intros l Hall. induction Hall as [|x l Hx _ IH]; [done|].
      rewrite filter_cons_False; [done|]. by rewrite is_line_for_spec. }
    rewrite filter_app, filter_cons_True
      by (apply is_line_for_spec, cell_line_for).
    by rewrite (Hnone pre Hpre), (Hnone post Hpost).
Qed.

Lemma C10_one_line_per_cell_witness :
  length (output scenario_A) = 3 + 3 ∧
  length (filter (λ line, is_line_for "C2" line = true) (output scenario_A))
    = 1.
Proof.
  destruct (C10_one_line_per_cell scenario_A sheet_A) as [_ Hone];
    [reflexivity|].
  split; [reflexivity|].
  rewrite Forall_forall in Hone.
  apply (Hone (2, 3)) with (v := VStr "=A1*2").
  - apply elem_of_positions. simpl. lia.
  - reflexivity.
  - reflexivity.
Defined.

(** ** Further properties of the script *)

Section further.

Lemma sorted_NoDup {A} (R : relation A) `{!Irreflexive R} (l : list A) :
  StronglySorted R l → NoDup l.
Proof.
  induction 1 as [|a l _ IH Ha]; constructor; [|done].
  intros Hin. rewrite Forall_forall in Ha.
  by apply (irreflexivity R a), Ha.
Qed.

Lemma positions_NoDup (a b c d : nat) : NoDup (positions a b c d).
Proof. eapply sorted_NoDup, positions_sorted. apply _. Qed.

(** A property checked on the list of the positions holds all over the
    window. *)
Lemma window_forall (P : nat * nat → Prop) :
  Forall P (positions 1 40 1 15) → ∀ r c, in_window r c → P (r, c).
Proof.
  intros H r c Hw. rewrite Forall_forall in H.
  by apply H, elem_of_positions.
Qed.

Lemma entry_is_Some (ws : Worksheet) (p : nat * nat) :
  in_window p.1 p.2 → is_Some (entry ws p) ↔ is_Some (cells ws !! p).
Proof.
  intros Hw. unfold entry.
  destruct (in_window_coordinate ws p.1 p.2 Hw) as [coord ->].
  destruct (cells ws !! p); simpl; split; intros [? ?]; by eauto.
Qed.

Lemma entry_window_ext (ws ws' : Worksheet) (p : nat * nat) :
  cells ws !! p = cells ws' !! p → entry ws p = entry ws' p.
Proof. unfold entry. by intros ->. Qed.

Lemma omap_none {A B} (f : A → option B) (l : list A) :
  Forall (λ x, f x = None) l → omap f l = [].
Proof. induction 1 as [|x l Hx _ IH]; csimpl; [done|]. by rewrite Hx. Qed.

Lemma omap_ext_Forall {A B} (f g : A → option B) (l : list A) :
  Forall (λ x, f x = g x) l → omap f l = omap g l.
Proof.
  induction 1 as [|x l Hx _ IH]; csimpl; [done|]. by rewrite Hx, IH.
Qed.

Lemma omap_filter_length {A B} (f : A → option B) (l : list A) :
  length (omap f l) = length (filter (λ x, is_Some (f x)) l).
Proof.
  induction l as [|x l IH]; csimpl; [done|].
  destruct (f x) as [y|] eqn:E.
  - rewrite filter_cons_True by (rewrite E; by eexists). simpl. by rewrite IH.
  - rewrite filter_cons_False; [done|]. rewrite E. by intros [? ?].
Qed.

(** The scan prints as many lines as the window holds values. *)
Lemma entries_count (sheet : Worksheet) :
  length (entries sheet) = size (populated_in_window sheet).
Proof.
  unfold entries. rewrite omap_filter_length.
  unfold populated_in_window. rewrite <-size_dom.
  unfold size, set_size. simpl. apply Permutation_length.
  apply NoDup_Permutation.
  - apply NoDup_filter, positions_NoDup.
  - apply NoDup_elements.
  - intros p. rewrite list_elem_of_filter, elem_of_positions.
    rewrite elem_of_elements, elem_of_dom.
    split.
    + intros [Hs Hw]. apply entry_is_Some in Hs as [v Hv]; [|done].
      exists v. by apply map_lookup_filter_Some.
    + intros [v [Hv Hw]%map_lookup_filter_Some]. simpl in Hw.
      split; [|done]. apply entry_is_Some; [done|]. by exists v.
Qed.


Lemma emit_inj (w : World) (ls ls' : list string) :
  emit ls w = emit ls' w → ls = ls'.
Proof. unfold emit. intros [= H]. by apply app_inv_head in H. Qed.

(** When two texts give the same line. *)
Lemma cell_line_eq (coord s1 s2 : string) :
  cell_line coord s1 = cell_line coord s2 ↔
  s1 = s2 ∨
  (begins_with_equals s1 ∧ s2 = "FORMULA: " +:+ s1) ∨
  (begins_with_equals s2 ∧ s1 = "FORMULA: " +:+ s2).
Proof.
  unfold cell_line. rewrite <-!startswith_equals.
  destruct (Py.startswith s1 "=") eqn:E1, (Py.startswith s2 "=") eqn:E2.
  - split; [|intros [->|[[_ ->]|[_ ->]]]; try done].
    intros H%(inj (String.app coord))%(inj (String.app ": FORMULA: ")).
    by left.
  - split.
    + intros H%(inj (String.app coord)). right. left. split; [done|].
      change (": FORMULA: " +:+ s1) with (": " +:+ "FORMULA: " +:+ s1) in H.
      by apply (inj (String.app ": ")) in H.
    + intros [->|[[_ ->]|[? _]]]; [by rewrite E1 in E2|done|done].
  - split.
    + intros H%(inj (String.app coord)). right. right. split; [done|].
      change (": FORMULA: " +:+ s2) with (": " +:+ "FORMULA: " +:+ s2) in H.
      by apply (inj (String.app ": ")) in H.
    + intros [->|[[? _]|[_ ->]]]; [by rewrite E1 in E2|done|done].
  - split.
    + intros H%(inj (String.app coord))%(inj (String.app ": ")). by left.
    + intros [->|[[? _]|[? _]]]; done.
Qed.

End further.

(** X1: when no cell of rows 1-40 and columns 1-15 holds a value, the run
    ends normally and prints the three header strings and nothing else,
    whatever the sheet holds outside the window. *)
Theorem X1_empty_window (fs : gmap string file) (sheet : Worksheet) :
  loads fs sheet →
  (∀ r c, in_window r c → cells sheet !! (r, c) = None) →
  outcome fs = inr () ∧ output fs = header sheet.
Proof.
  intros Hl Hnone. split; [by eapply outcome_loads|].
  rewrite (output_loads _ _ Hl). unfold entries.
  rewrite omap_none, app_nil_r; [done|].
  apply Forall_forall. intros [r c] Hw%elem_of_positions.
  unfold entry. by rewrite (Hnone r c Hw).
Qed.

Lemma X1_empty_window_witness :
  cells sheet_F !! (41, 1) = Some (VStr "below") ∧
  outcome scenario_F = inr () ∧ output scenario_F = header sheet_F.
Proof.
  split; [reflexivity|].
  apply (X1_empty_window scenario_F sheet_F); [reflexivity|].
  apply (window_forall (λ p, cells sheet_F !! p = None)).
  refine (bool_decide_unpack _ _). vm_compute. exact I.
Defined.

(** X2: the output depends on the sheet through its title, its used range
    and the values of rows 1-40 and columns 1-15 only: two workbooks whose
    active sheets agree on these print the same strings. *)
Theorem X2_window_only (fs1 fs2 : gmap string file)
    (sheet1 sheet2 : Worksheet) :
  loads fs1 sheet1 → loads fs2 sheet2 →
  title sheet1 = title sheet2 →
  dimensions sheet1 = dimensions sheet2 →
  (∀ r c, in_window r c → cells sheet1 !! (r, c) = cells sheet2 !! (r, c)) →
  output fs1 = output fs2.
Proof.
  intros Hl1 Hl2 Ht Hd Hcells.
  rewrite (output_loads _ _ Hl1), (output_loads _ _ Hl2).
  unfold header. rewrite Ht, Hd. do 2 f_equal. unfold entries.
  apply omap_ext_Forall, Forall_forall.
  intros [r c] Hw%elem_of_positions.
  by apply entry_window_ext, Hcells.
Qed.

Lemma X2_window_only_witness :
  cells sheet_E !! (41, 1) ≠ cells sheet_G !! (41, 1) ∧
  output scenario_E = output scenario_G.
Proof.
  split; [discriminate|].
  apply (X2_window_only scenario_E scenario_G sheet_E sheet_G);
    [reflexivity..|].
  apply (window_forall (λ p, cells sheet_E !! p = cells sheet_G !! p)).
  refine (bool_decide_unpack _ _). vm_compute. exact I.
Defined.

(** X3: after a successful load the run prints three header strings and
    then exactly as many strings as the sheet holds values inside rows
    1-40 and columns 1-15. *)
Theorem X3_line_count (fs : gmap string file) (sheet : Worksheet) :
  loads fs sheet →
  length (output fs) = 3 + size (populated_in_window sheet).
Proof.
  intros Hl. rewrite (output_loads _ _ Hl), length_app, length_fmap.
  by rewrite entries_count.
Qed.

Lemma X3_line_count_witness :
  size (cells sheet_E) = 7 ∧
  size (populated_in_window sheet_E) = 5 ∧
  length (output scenario_E) = 3 + size (populated_in_window sheet_E).
Proof.
  split; [reflexivity|]. split; [reflexivity|].
  apply (X3_line_count scenario_E sheet_E). reflexivity.
Defined.



(** X6: the visits of two values at one position print the same line
    exactly when the values have the same text, or when one text begins
    with [=] and the other is that text behind [FORMULA: ]: a text cell
    that reads [FORMULA: =A1] prints like the formula [=A1]. *)
Theorem X6_line_collisions (r c : nat) (v1 v2 : cell_value) (w : World) :
  is_Some (get_column_letter c) →
  visit {| row := r; column := c; value := Some v1 |} w
  = visit {| row := r; column := c; value := Some v2 |} w
  ↔ str v1 = str v2 ∨
    (begins_with_equals (str v1) ∧ str v2 = "FORMULA: " +:+ str v1) ∨
    (begins_with_equals (str v2) ∧ str v1 = "FORMULA: " +:+ str v2).
Proof.
  intros [col Hcol].
  assert (∀ v, coordinate {| row := r; column := c; value := v |}
               = Some (col +:+ Py.str_nat r)) as Hc.
  { intros v. unfold coordinate. simpl. by rewrite Hcol. }
  rewrite !visit_emit by (rewrite Hc; by eexists).
  unfold cell_lines. simpl. rewrite !Hc. rewrite <-cell_line_eq. split.
  - intros H. apply (inj2 pair) in H as [_ H].
    apply emit_inj in H. by injection H.
  - by intros ->.
Qed.

Lemma X6_line_collisions_witness :
  visit {| row := 1; column := 1; value := Some (VStr "=A1*2") |} (start ∅)
  = visit {| row := 1; column := 1;
             value := Some (VStr "FORMULA: =A1*2") |} (start ∅).
Proof.
  apply (X6_line_collisions 1 1 (VStr "=A1*2") (VStr "FORMULA: =A1*2")).
  - by exists "A".
  - right. left. split; [by exists "A1*2"|reflexivity].
Defined.



(** X8: inside the window the coordinate of a cell is one capital letter,
    the [c]-th of the alphabet (A for column 1, O for column 15), followed
    by the row number in decimal. *)
Theorem X8_window_coordinate (ws : Worksheet) (r c : nat) :
  in_window r c →
  coordinate (ws_cell ws r c)
  = Some (String (ascii_of_nat (64 + c)) (Py.str_nat r)).
Proof.
  intros [_ [Hc1 Hc2]].
  do 16 (destruct c as [|c]; [try lia; reflexivity|]). lia.
Qed.

Lemma X8_window_coordinate_witness :
  coordinate (ws_cell sheet_E 40 15) = Some "O40".
Proof.
  apply (X8_window_coordinate sheet_E 40 15). unfold in_window. lia.
Defined.
